(** * Verification of the pipeline stack constructor

    A shallow embedding of [src/pipeline-stack+(1).ts]: the constructor of
    [PipelineStack], which builds a delivery pipeline (Source, Build,
    optional Approval, Deploy), binds one action to each stage, threads two
    artifacts between the actions and attaches one notification rule.

    The constructor is straight-line code over mutable objects of the
    provisioning library.  The objects it mutates are threaded explicitly:
    the stack scope [this] (the ids of the constructs created in it), the
    artifact store (one cell per [new codepipeline.Artifact]) and the
    pipeline (its ordered stage list).  Calls that can throw return in the
    error monad [Result]. *)

From Stdlib Require Import String Ascii List Bool Arith Lia.
Import ListNotations.

Local Open Scope string_scope.
Local Open Scope list_scope.

(** JS template literals: [`a-${x}-b`] is ["a-" +++ x +++ "-b"]. *)
Infix "+++" := String.append (right associativity, at level 60).

(** ** Errors and the error monad *)

Inductive Error : Type :=
| DuplicateConstruct (id : string)
| DuplicateStage (stageName : string)
| PlacementNotFound (stageName : string)
| UnknownStage (stageName : string)
| DuplicateAction (stageName actionName : string)
| InvalidName (thing name : string).

Definition Result (A : Type) : Type := (Error + A)%type.

Definition Ok {A : Type} (a : A) : Result A := inr a.
Definition Err {A : Type} (e : Error) : Result A := inl e.

Definition bind {A B : Type} (m : Result A) (k : A -> Result B) : Result B :=
  match m with
  | inl e => inl e
  | inr a => k a
  end.

Notation "x <- m ;; k" := (bind m (fun x => k))
  (at level 61, m at next level, right associativity).
Notation "' pat <- m ;; k" := (bind m (fun x => match x with pat => k end))
  (at level 61, pat pattern, m at next level, right associativity).

(** ** The provisioning library, as far as the constructor calls it

    The library is imported by the sources, not part of them.  The
    definitions of this module follow its documented behaviour for the
    calls the constructor makes: a scope refuses a second construct under
    one id, a pipeline refuses a second stage of one name and a placement
    after a stage it does not hold, a stage refuses a second action of one
    name, and [new] allocates.  Its checks on resource properties belong to
    provisioning and are left out; its check on the form of a name is
    [validateName], which [stageAddAction] runs and the embedding of the
    constructor leaves to provisioning. *)

Module Cdk.

(** *** Strings that may stand for a value only known at deployment *)

(** A string property is either a literal or a token the provisioning
    system replaces when the stack is deployed. *)
Inductive Value : Type :=
| Literal (s : string)
| SecretString (secretId : string)
| ParameterValue (parameterName : string)
| BucketWebsiteUrl (bucketId : string)
| PipelineArn (pipelineId : string).

(** [cdk.SecretValue]: a reference into the secrets collaborator. *)
Inductive SecretValue : Type :=
| secretsManager (secretId : string).

(** [SecretValue.toString()]: the secret as a string token. *)
Definition toString (s : SecretValue) : Value :=
  match s with
  | secretsManager secretId => SecretString secretId
  end.

(** *** Constructs of a scope *)

Record CfnNotificationRuleTarget : Type := {
  targetType : string;
  targetAddress : Value
}.

Record CfnNotificationRuleProps : Type := {
  detailType : string;
  eventTypeIds : list string;
  name : string;
  resource : Value;
  targets : list CfnNotificationRuleTarget
}.

(** What a construct id of the stack is bound to.  Buckets, roles,
    policies, imported parameters, networks, topics and build projects are
    the provisioning collaborator's business: only their ids matter here. *)
Inductive Resource : Type :=
| Provisioned
| NotificationRule (props : CfnNotificationRuleProps).

Definition Scope : Type := list (string * Resource).

(** A scope keeps an id with every path separator [/] written [--]. *)
Fixpoint sanitizeId (id : string) : string :=
  match id with
  | EmptyString => EmptyString
  | String c rest =>
      if Ascii.eqb c "/"%char
      then String "-"%char (String "-"%char (sanitizeId rest))
      else String c (sanitizeId rest)
  end.

(** [node.tryFindChild(id)] *)
Definition hasChild (id : string) (this : Scope) : bool :=
  existsb (fun c => String.eqb (fst c) (sanitizeId id)) this.

(** [new X(this, id, ...)]: a scope refuses a second construct under an
    id it already holds. *)
Definition newConstruct (id : string) (r : Resource) (this : Scope)
  : Result Scope :=
  if hasChild id this then Err (DuplicateConstruct (sanitizeId id))
  else Ok (this ++ [(sanitizeId id, r)]).

(** [ssm.StringParameter.fromStringParameterName(this, id, name)]: the
    template parameter that carries the value is created under
    [id.Parameter], then the imported parameter under [id]. *)
Definition fromStringParameterName (id parameterName : string) (this : Scope)
  : Result (Value * Scope) :=
  this <- newConstruct (id +++ ".Parameter") Provisioned this ;;
  this <- newConstruct id Provisioned this ;;
  Ok (ParameterValue parameterName, this).

(** [ssm.StringParameter.valueForStringParameter(this, name)]: the
    parameter is imported under an id derived from its name, and reused
    when that id is already there. *)
Definition valueForStringParameter (parameterName : string) (this : Scope)
  : Result (Value * Scope) :=
  let id := "SsmParameterValue:" +++ parameterName
            +++ ":C96584B6-F00A-464E-AD19-53AFF4B05118" in
  if hasChild id this then Ok (ParameterValue parameterName, this)
  else fromStringParameterName id parameterName this.

(** *** Artifacts *)

(** [new codepipeline.Artifact(name)] allocates an object; a handle is
    the position of its cell in the store. *)
Definition Artifact : Type := nat.
Definition ArtifactStore : Type := list string.

Definition newArtifact (artifactName : string) (store : ArtifactStore)
  : Artifact * ArtifactStore :=
  (List.length store, store ++ [artifactName]).

(** *** Build projects *)

Inductive BuildEnvironmentVariableType : Type :=
| PLAINTEXT
| PARAMETER_STORE
| SECRETS_MANAGER.

Record BuildEnvironmentVariable : Type := {
  type : option BuildEnvironmentVariableType;
  value : Value
}.

(** An omitted [type] means plaintext. *)
Definition effectiveType (v : BuildEnvironmentVariable)
  : BuildEnvironmentVariableType :=
  match type v with
  | Some t => t
  | None => PLAINTEXT
  end.

Record PipelineProject : Type := {
  projectId : string;
  projectName : string;
  description : string;
  role : string;
  vpc : option string;
  environmentVariables : list (string * BuildEnvironmentVariable);
  buildImage : string;
  privileged : bool;
  buildSpec : string
}.

(** *** Actions *)

Inductive GitHubTrigger : Type :=
| NONE
| POLL
| WEBHOOK.

Record GitHubSourceActionProps : Type := {
  gh_actionName : string;
  gh_owner : string;
  gh_repo : string;
  gh_oauthToken : SecretValue;
  gh_branch : string;
  gh_trigger : GitHubTrigger;
  gh_output : Artifact
}.

Record CodeBuildActionProps : Type := {
  cb_actionName : string;
  input : Artifact;
  outputs : option (list Artifact);
  project : PipelineProject
}.

(** A piece of a template literal: text, or a variable of an action that
    the pipeline fills in when it runs. *)
Inductive Fragment : Type :=
| Text (s : string)
| ActionVariable (actionName variableName : string).

Record ManualApprovalActionProps : Type := {
  ma_actionName : string;
  notificationTopic : string;
  externalEntityLink : list Fragment;
  additionalInformation : string
}.

Inductive Action : Type :=
| GitHubSourceAction (props : GitHubSourceActionProps)
| CodeBuildAction (props : CodeBuildActionProps)
| ManualApprovalAction (props : ManualApprovalActionProps).

Definition actionName (a : Action) : string :=
  match a with
  | GitHubSourceAction p => gh_actionName p
  | CodeBuildAction p => cb_actionName p
  | ManualApprovalAction p => ma_actionName p
  end.

Definition actionInputs (a : Action) : list Artifact :=
  match a with
  | GitHubSourceAction _ => []
  | CodeBuildAction p => [input p]
  | ManualApprovalAction _ => []
  end.

(** Omitted [outputs] are no outputs. *)
Definition actionOutputs (a : Action) : list Artifact :=
  match a with
  | GitHubSourceAction p => [gh_output p]
  | CodeBuildAction p =>
      match outputs p with
      | Some l => l
      | None => []
      end
  | ManualApprovalAction _ => []
  end.

Definition isApproval (a : Action) : bool :=
  match a with
  | ManualApprovalAction _ => true
  | _ => false
  end.

(** *** Stages and the pipeline *)

(** A stage is referred to by its name: [addStage] keeps the names of a
    pipeline distinct, so within one pipeline the name identifies the
    stage object. *)
Definition IStage : Type := string.

Record StagePlacement : Type := {
  justAfter : IStage
}.

Record StageOptions : Type := {
  opt_stageName : string;
  opt_placement : option StagePlacement
}.

(** A stage keeps the placement directive it was added with, next to its
    name and the actions bound to it so far. *)
Record Stage : Type := {
  stageName : string;
  placement : option StagePlacement;
  actions : list Action
}.

Record Pipeline : Type := {
  pipelineId : string;
  pipelineName : string;
  restartExecutionOnUpdate : bool;
  artifactBucket : string;
  stages : list Stage
}.

Definition pipelineArn (p : Pipeline) : Value := PipelineArn (pipelineId p).

Definition withStages (p : Pipeline) (l : list Stage) : Pipeline :=
  {| pipelineId := pipelineId p;
     pipelineName := pipelineName p;
     restartExecutionOnUpdate := restartExecutionOnUpdate p;
     artifactBucket := artifactBucket p;
     stages := l |}.

Definition stageNames (p : Pipeline) : list string :=
  map stageName (stages p).

Fixpoint findStageIndex (target : IStage) (l : list Stage) : option nat :=
  match l with
  | [] => None
  | s :: rest =>
      if String.eqb (stageName s) target then Some 0
      else option_map S (findStageIndex target rest)
  end.

Definition findStage (target : IStage) (p : Pipeline) : option Stage :=
  find (fun s => String.eqb (stageName s) target) (stages p).

(** [array.splice(index, 0, x)] *)
Definition splice {A : Type} (index : nat) (x : A) (l : list A) : list A :=
  firstn index l ++ x :: skipn index l.

(** [pipeline.addStage(options)]: a second stage of the same name is
    refused, a placement after a stage the pipeline does not hold is
    refused, a stage without placement goes last. *)
Definition addStage (options : StageOptions) (p : Pipeline)
  : Result (IStage * Pipeline) :=
  if existsb (fun s => String.eqb (stageName s) (opt_stageName options))
             (stages p)
  then Err (DuplicateStage (opt_stageName options))
  else
    let stage := {| stageName := opt_stageName options;
                    placement := opt_placement options;
                    actions := [] |} in
    match opt_placement options with
    | None => Ok (stageName stage, withStages p (stages p ++ [stage]))
    | Some pl =>
        match findStageIndex (justAfter pl) (stages p) with
        | None => Err (PlacementNotFound (justAfter pl))
        | Some targetIndex =>
            Ok (stageName stage,
                withStages p (splice (targetIndex + 1) stage (stages p)))
        end
    end.

Definition pushAction (a : Action) (s : Stage) : Stage :=
  {| stageName := stageName s;
     placement := placement s;
     actions := actions s ++ [a] |}.

(** The part of [stage.addAction(action)] that looks at the pipeline: the
    stage must hold no action of that name yet, and then holds the action
    as its last.  The check on the form of the name, which the library
    runs first, is [validateName]; [stageAddAction] below has both.  A
    name that is no stage of the pipeline cannot arise in the source, where
    the reference is the object. *)
Definition addAction (stage : IStage) (a : Action) (p : Pipeline)
  : Result Pipeline :=
  match findStage stage p with
  | None => Err (UnknownStage stage)
  | Some s =>
      if existsb (fun b => String.eqb (actionName b) (actionName a))
                 (actions s)
      then Err (DuplicateAction stage (actionName a))
      else
        Ok (withStages p
              (map (fun s' => if String.eqb (stageName s') stage
                              then pushAction a s' else s')
                   (stages p)))
  end.

(** The characters of [/^[a-zA-Z0-9.@_-]{1,100}$/]. *)
Definition nameChar (c : ascii) : bool :=
  let n := nat_of_ascii c in
  (((97 <=? n) && (n <=? 122))
   || ((65 <=? n) && (n <=? 90))
   || ((48 <=? n) && (n <=? 57))
   || (n =? 46) || (n =? 64) || (n =? 95) || (n =? 45))%nat.

Fixpoint allChars (f : ascii -> bool) (s : string) : bool :=
  match s with
  | EmptyString => true
  | String c rest => f c && allChars f rest
  end.

Definition validName (name : string) : bool :=
  ((1 <=? String.length name)%nat && (String.length name <=? 100)%nat)
  && allChars nameChar name.

(** [validateName(thing, name)] *)
Definition validateName (thing name : string) : Result unit :=
  if validName name then Ok tt else Err (InvalidName thing name).

(** [stage.addAction(action)] in full: the name's form, then [addAction].
    Nothing in it looks at the kind of the action. *)
Definition stageAddAction (stage : IStage) (a : Action) (p : Pipeline)
  : Result Pipeline :=
  _ <- validateName "Action" (actionName a) ;;
  addAction stage a p.

End Cdk.

(** ** The stack *)

Module PipelineStack.
Import Cdk.

(** Modelled from the spec: the declaration of [CodebuildOptions] lives in
    [./types], which is not among the sources.  The fields are the ones the
    constructor reads; the network identifiers only reach the imported
    network, which is provisioning. *)
Record CodebuildOptions : Type := {
  ENV : string;
  branch : string;
  testStage : string;
  productionStage : string;
  vpcId : string;
  availabilityZones : list string;
  publicSubnetIds : list string;
  privateSubnetIds : list string;
  privateSubnetRouteTableIds : list string;
  publicSubnetRouteTableIds : list string
}.

(** The guard of both conditional blocks: [environment.ENV !== 'dev']. *)
Definition isProduction (environment : CodebuildOptions) : bool :=
  negb (String.eqb (ENV environment) "dev").

(** *** Stage construction *)

Record Stages : Type := {
  sourceStage : IStage;
  buildStage : IStage;
  approveStage : option IStage;
  deployStage : IStage
}.

(** [approveStage || buildStage] *)
Definition orElse (approveStage : option IStage) (buildStage : IStage)
  : IStage :=
  match approveStage with
  | Some s => s
  | None => buildStage
  end.

Definition addStages (environment : CodebuildOptions) (codePipeline : Pipeline)
  : Result (Stages * Pipeline) :=
  ' (sourceStage, codePipeline) <-
      addStage {| opt_stageName := "Source"; opt_placement := None |}
               codePipeline ;;
  ' (buildStage, codePipeline) <-
      addStage {| opt_stageName := "Build";
                  opt_placement := Some {| justAfter := sourceStage |} |}
               codePipeline ;;
  ' (approveStage, codePipeline) <-
      (if negb (String.eqb (ENV environment) "dev") then
         ' (approveStage, codePipeline) <-
             addStage {| opt_stageName := "Approval";
                         opt_placement := Some {| justAfter := buildStage |} |}
                      codePipeline ;;
         Ok (Some approveStage, codePipeline)
       else Ok (None, codePipeline)) ;;
  ' (deployStage, codePipeline) <-
      addStage {| opt_stageName := "Deploy";
                  opt_placement :=
                    Some {| justAfter := orElse approveStage buildStage |} |}
               codePipeline ;;
  Ok ({| sourceStage := sourceStage;
         buildStage := buildStage;
         approveStage := approveStage;
         deployStage := deployStage |}, codePipeline).

(** *** Actions and the projects they run *)

Definition oauthSecret : SecretValue := secretsManager "bridge-githubAccessToken".

Definition sourceAction (environment : CodebuildOptions) (sourceOutput : Artifact)
  : Action :=
  GitHubSourceAction
    {| gh_actionName := "bridge-api-codebuild-action-" +++ ENV environment +++ "-v2";
       gh_owner := "CoolBitX-Technology";
       gh_repo := "sygna-bridge-api";
       gh_oauthToken := oauthSecret;
       gh_branch := branch environment;
       gh_trigger := WEBHOOK;
       gh_output := sourceOutput |}.

Definition plain (v : Value) : BuildEnvironmentVariable :=
  {| type := None; value := v |}.

(** The variable set both projects are given. *)
Definition environmentVariablesOf (environment : CodebuildOptions)
  (reportBucket : string) (slackHookUrl : Value)
  : list (string * BuildEnvironmentVariable) :=
  [ ("ENV", plain (Literal (ENV environment)));
    ("GITHUB_OAUTH_TOKEN", plain (toString oauthSecret));
    ("TEST_STAGE", plain (Literal (testStage environment)));
    ("PROD_STAGE", plain (Literal (productionStage environment)));
    ("BRANCH", plain (Literal (branch environment)));
    ("S3_REPORT_BUCKET_URL", plain (BucketWebsiteUrl reportBucket));
    ("SLACK_HOOK_URL", plain slackHookUrl) ].

Definition goldenImage : string := "sygna/codebuild_base_image:latest".

Definition reportBucketId (environment : CodebuildOptions) : string :=
  "Bridge-Api-Sit-Report-" +++ ENV environment +++ "-v2".

Definition buildRoleId (environment : CodebuildOptions) : string :=
  "Bridge-Api-CodeBuild-Role-" +++ ENV environment +++ "-v2".

Definition vpcConstructId (environment : CodebuildOptions) : string :=
  "Bridge-Vpc-" +++ testStage environment +++ "-v2".

Definition slackHookUrl (environment : CodebuildOptions) : Value :=
  ParameterValue ("/sit/" +++ ENV environment +++ "/SLACK_HOOK_URL").

Definition codeBuildProject (environment : CodebuildOptions) : PipelineProject :=
  {| projectId := "Bridge-Api-" +++ ENV environment +++ "-v2";
     projectName := "Bridge-Api-Codebuild-" +++ ENV environment +++ "-v2";
     description := "Bridge-Api Codebuild - " +++ ENV environment;
     role := buildRoleId environment;
     vpc := Some (vpcConstructId environment);
     environmentVariables :=
       environmentVariablesOf environment (reportBucketId environment)
                              (slackHookUrl environment);
     buildImage := goldenImage;
     privileged := true;
     buildSpec := "buildspec.yml" |}.

Definition buildAction (environment : CodebuildOptions)
  (sourceOutput buildOutput : Artifact) : Action :=
  CodeBuildAction
    {| cb_actionName := "Build";
       input := sourceOutput;
       outputs := Some [buildOutput];
       project := codeBuildProject environment |}.

Definition approvalTopicId (environment : CodebuildOptions) : string :=
  "Bridge-ApprovalSNS-" +++ ENV environment +++ "-v2".

Definition approvalAction (environment : CodebuildOptions) (sourceAction : Action)
  : Action :=
  ManualApprovalAction
    {| ma_actionName := "ApprovalOrDeny";
       notificationTopic := approvalTopicId environment;
       externalEntityLink :=
         [ Text "https://github.com/CoolBitX-Technology/";
           ActionVariable (actionName sourceAction) "RepositoryName";
           Text "/commit/";
           ActionVariable (actionName sourceAction) "CommitId" ];
       additionalInformation := "Please check Github commit before APPROVE!!" |}.

Definition codeBuildDeploy (environment : CodebuildOptions) : PipelineProject :=
  {| projectId := "Bridge-Api-Codebuild-Deploy-" +++ ENV environment +++ "-v2";
     projectName := "Bridge-Api-Codebuild-Deploy-" +++ ENV environment +++ "-v2";
     description := "Bridge Api Codebuild Deploy - " +++ ENV environment;
     role := buildRoleId environment;
     vpc := None;
     environmentVariables :=
       environmentVariablesOf environment (reportBucketId environment)
                              (slackHookUrl environment);
     buildImage := goldenImage;
     privileged := true;
     buildSpec := "buildDeploy.yml" |}.

Definition deployAction (environment : CodebuildOptions) (buildOutput : Artifact)
  : Action :=
  CodeBuildAction
    {| cb_actionName := "Deploy";
       input := buildOutput;
       outputs := None;
       project := codeBuildDeploy environment |}.

(** *** The notification rule *)

Definition notificationRuleId : string := "bridge-api-codestar-notification".

Definition codepipelinebuildStar (environment : CodebuildOptions)
  (codePipeline : Pipeline) (snsJiraArn : Value) : CfnNotificationRuleProps :=
  {| detailType := "FULL";
     eventTypeIds :=
       [ "codepipeline-pipeline-pipeline-execution-succeeded";
         "codepipeline-pipeline-pipeline-execution-failed" ];
     name := "bridge-api-" +++ ENV environment +++ "-codepipeline-notification";
     resource := pipelineArn codePipeline;
     targets := [ {| targetType := "SNS"; targetAddress := snsJiraArn |} ] |}.

(** Attaching the rule: [new CfnNotificationRule(this, id, props)]. *)
Definition attachNotification (environment : CodebuildOptions)
  (codePipeline : Pipeline) (snsJiraArn : Value) (this : Scope) : Result Scope :=
  newConstruct notificationRuleId
    (NotificationRule (codepipelinebuildStar environment codePipeline snsJiraArn))
    this.

(** *** The constructor *)

Record Stack : Type := {
  scope : Scope;
  artifacts : ArtifactStore;
  codePipeline : Pipeline
}.

Definition codebuildBucketId (environment : CodebuildOptions) : string :=
  "Bridge-Api-Codebuild-Bucket-" +++ ENV environment +++ "-v2".

Definition pipelineConstructId (environment : CodebuildOptions) : string :=
  "Bridge-Api-Pipeline-" +++ ENV environment +++ "-v2".

Definition newPipeline (environment : CodebuildOptions) : Pipeline :=
  {| pipelineId := pipelineConstructId environment;
     pipelineName := "bridge-api-pipeline-" +++ ENV environment +++ "-v2";
     restartExecutionOnUpdate := true;
     artifactBucket := codebuildBucketId environment;
     stages := [] |}.

(** The statements of the source, in their order.  A construct created in
    the stack is registered in [this] under its id; the properties of the
    buckets, the role, its policy, the imported network and the rule that
    opens the build project's port are provisioning and are not kept, and
    neither is the check on the form of the names built from [ENV] (the
    bucket, role and pipeline names, the Source action's name). *)
Definition constructor (environment : CodebuildOptions) : Result Stack :=
  let this : Scope := [] in
  let store : ArtifactStore := [] in
  ' (dockerArn, this) <-
      fromStringParameterName "Bridge-Codebuild-Arn"
                              "/bridge/codebuild/DOCKER_HUB_ARN" this ;;
  this <- newConstruct "BridgeCodebuildDockerArn" Provisioned this ;;
  this <- newConstruct (reportBucketId environment) Provisioned this ;;
  this <- newConstruct (codebuildBucketId environment) Provisioned this ;;
  this <- newConstruct (buildRoleId environment) Provisioned this ;;
  this <- newConstruct ("Bridge-Api-Codebuild-Policy-" +++ ENV environment +++ "-v2")
                       Provisioned this ;;
  this <- newConstruct (vpcConstructId environment) Provisioned this ;;
  this <- newConstruct (pipelineConstructId environment) Provisioned this ;;
  let codePipeline := newPipeline environment in
  ' (st, codePipeline) <- addStages environment codePipeline ;;
  ' (slackHookUrl, this) <-
      fromStringParameterName
        ("bridge-api-slack-" +++ ENV environment +++ "-url")
        ("/sit/" +++ ENV environment +++ "/SLACK_HOOK_URL") this ;;
  let '(sourceOutput, store) := newArtifact "sourceOutput" store in
  let sourceAction := sourceAction environment sourceOutput in
  codePipeline <- addAction (sourceStage st) sourceAction codePipeline ;;
  this <- newConstruct (projectId (codeBuildProject environment)) Provisioned this ;;
  let '(buildOutput, store) := newArtifact "buildOutput" store in
  let buildAction := buildAction environment sourceOutput buildOutput in
  codePipeline <- addAction (buildStage st) buildAction codePipeline ;;
  ' (this, codePipeline) <-
      (if negb (String.eqb (ENV environment) "dev") then
         ' (snsArn, this) <-
             fromStringParameterName "bridge-arn-slackSNS"
                                     "/bridge/arn/slack-sns" this ;;
         this <- newConstruct (approvalTopicId environment) Provisioned this ;;
         let approvalAction := approvalAction environment sourceAction in
         codePipeline <-
           match approveStage st with
           | Some approveStage => addAction approveStage approvalAction codePipeline
           | None => Ok codePipeline
           end ;;
         Ok (this, codePipeline)
       else Ok (this, codePipeline)) ;;
  this <- newConstruct (projectId (codeBuildDeploy environment)) Provisioned this ;;
  let deployAction := deployAction environment buildOutput in
  codePipeline <- addAction (deployStage st) deployAction codePipeline ;;
  ' (snsJiraArn, this) <-
      valueForStringParameter "/cfstack/arn/JIRA_INTEGRATION" this ;;
  this <- attachNotification environment codePipeline snsJiraArn this ;;
  Ok {| scope := this; artifacts := store; codePipeline := codePipeline |}.

End PipelineStack.

(** ** Sample environments *)

Module Samples.
Import PipelineStack.

Definition devEnv : CodebuildOptions :=
  {| ENV := "dev"; branch := "develop";
     testStage := "sit"; productionStage := "prod";
     vpcId := "vpc-0a1b"; availabilityZones := ["az-a"; "az-b"];
     publicSubnetIds := ["pub-a"; "pub-b"];
     privateSubnetIds := ["priv-a"; "priv-b"];
     privateSubnetRouteTableIds := ["rt-a"; "rt-b"];
     publicSubnetRouteTableIds := ["rt-c"; "rt-d"] |}.

Definition prodEnv : CodebuildOptions :=
  {| ENV := "prod"; branch := "main";
     testStage := "sit"; productionStage := "prod";
     vpcId := "vpc-0a1b"; availabilityZones := ["az-a"; "az-b"];
     publicSubnetIds := ["pub-a"; "pub-b"];
     privateSubnetIds := ["priv-a"; "priv-b"];
     privateSubnetRouteTableIds := ["rt-a"; "rt-b"];
     publicSubnetRouteTableIds := ["rt-c"; "rt-d"] |}.

End Samples.

(** ** What the constructor builds, in closed form *)

Module Built.
Import Cdk PipelineStack.

Definition stagesOf (environment : CodebuildOptions) : list Stage :=
  [ {| stageName := "Source"; placement := None;
       actions := [sourceAction environment 0] |};
    {| stageName := "Build"; placement := Some {| justAfter := "Source" |};
       actions := [buildAction environment 0 1] |} ]
  ++ (if isProduction environment
      then [ {| stageName := "Approval";
                placement := Some {| justAfter := "Build" |};
                actions := [approvalAction environment
                              (sourceAction environment 0)] |} ]
      else [])
  ++ [ {| stageName := "Deploy";
          placement :=
            Some {| justAfter := if isProduction environment
                                 then "Approval" else "Build" |};
          actions := [deployAction environment 1] |} ].

Definition pipelineOf (environment : CodebuildOptions) : Pipeline :=
  withStages (newPipeline environment) (stagesOf environment).

Definition snsJiraArn : Value := ParameterValue "/cfstack/arn/JIRA_INTEGRATION".

Definition scopeOf (environment : CodebuildOptions) : Scope :=
  map (fun id => (sanitizeId id, Provisioned))
    ([ "Bridge-Codebuild-Arn.Parameter";
       "Bridge-Codebuild-Arn";
       "BridgeCodebuildDockerArn";
       reportBucketId environment;
       codebuildBucketId environment;
       buildRoleId environment;
       "Bridge-Api-Codebuild-Policy-" +++ ENV environment +++ "-v2";
       vpcConstructId environment;
       pipelineConstructId environment;
       ("bridge-api-slack-" +++ ENV environment +++ "-url") +++ ".Parameter";
       "bridge-api-slack-" +++ ENV environment +++ "-url";
       projectId (codeBuildProject environment) ]
     ++ (if isProduction environment
         then [ "bridge-arn-slackSNS.Parameter";
                "bridge-arn-slackSNS";
                approvalTopicId environment ]
         else [])
     ++ [ projectId (codeBuildDeploy environment);
          "SsmParameterValue:/cfstack/arn/JIRA_INTEGRATION:C96584B6-F00A-464E-AD19-53AFF4B05118.Parameter";
          "SsmParameterValue:/cfstack/arn/JIRA_INTEGRATION:C96584B6-F00A-464E-AD19-53AFF4B05118" ])
  ++ [ (notificationRuleId,
        NotificationRule
          (codepipelinebuildStar environment (pipelineOf environment)
                                 snsJiraArn)) ].

Definition stackOf (environment : CodebuildOptions) : Stack :=
  {| scope := scopeOf environment;
     artifacts := ["sourceOutput"; "buildOutput"];
     codePipeline := pipelineOf environment |}.

End Built.

(** ** Observations on a built pipeline *)

Module Observe.
Import Cdk.

(** The stage a stage was placed after, as its placement directive says. *)
Definition precedingStage (stage : IStage) (p : Pipeline) : option IStage :=
  match findStage stage p with
  | Some s => option_map justAfter (placement s)
  | None => None
  end.

Definition actionsOf (stage : IStage) (p : Pipeline) : list Action :=
  match findStage stage p with
  | Some s => actions s
  | None => []
  end.

(** The last stage of the pipeline: nothing runs after it. *)
Definition terminalStage (p : Pipeline) : option Stage :=
  last (map Some (stages p)) None.

Definition produces (a : Artifact) (act : Action) : bool :=
  existsb (Nat.eqb a) (actionOutputs act).

Definition producersIn (a : Artifact) (l : list Stage) : list Action :=
  filter (produces a) (flat_map actions l).

(** Every artifact an action consumes has exactly one producer, and that
    producer is bound in a stage before the consumer's. *)
Fixpoint wired (before rest : list Stage) : bool :=
  match rest with
  | [] => true
  | s :: rest' =>
      forallb
        (fun act =>
           forallb
             (fun a =>
                Nat.eqb (List.length (producersIn a before)) 1
                && Nat.eqb (List.length (producersIn a rest)) 0)
             (actionInputs act))
        (actions s)
      && wired (before ++ [s]) rest'
  end.

Definition wellWired (p : Pipeline) : bool := wired [] (stages p).

Definition notificationRules (this : Scope) : list CfnNotificationRuleProps :=
  flat_map (fun c => match snd c with
                     | NotificationRule props => [props]
                     | Provisioned => []
                     end) this.

End Observe.

(** ** Deployment: what the tokens become *)

Module Deployment.
Import Cdk.

(** Modelled from the spec: the collaborators of its section 6, which the
    sources only reach through the provisioning library.  The secrets
    resolver maps a secret reference to the secret, the parameter store a
    path to its string; the two others give a bucket its address and a
    pipeline its resource name. *)
Record Collaborators : Type := {
  resolve : string -> string;
  lookup : string -> string;
  websiteUrlOf : string -> string;
  arnOf : string -> string
}.

(** A token is replaced by what it stands for when the stack is deployed. *)
Definition resolveValue (c : Collaborators) (v : Value) : string :=
  match v with
  | Literal s => s
  | SecretString secretId => resolve c secretId
  | ParameterValue parameterName => lookup c parameterName
  | BucketWebsiteUrl bucketId => websiteUrlOf c bucketId
  | PipelineArn pipelineId => arnOf c pipelineId
  end.

(** The variable set a deployed project holds: name, type, stored string. *)
Definition resolvedEnvironment (c : Collaborators) (p : PipelineProject)
  : list (string * (BuildEnvironmentVariableType * string)) :=
  map (fun kv => (fst kv, (effectiveType (snd kv),
                           resolveValue c (value (snd kv)))))
      (environmentVariables p).

Definition projectOf (a : Action) : option PipelineProject :=
  match a with
  | CodeBuildAction p => Some (project p)
  | _ => None
  end.

End Deployment.

(** ** Lifecycle events *)

Module Events.

Inductive Granularity : Type :=
| ActionExecution
| StageExecution
| PipelineExecution
| ManualApproval.

Inductive LifecycleEvent : Type :=
| Started
| Succeeded
| Failed
| Canceled
| Resumed
| Superseded
| Needed.

(** Modelled from the spec: the event type ids the notification sink
    accepts for a pipeline, which the sources use as bare strings. *)
Definition eventTypes : list (string * (Granularity * LifecycleEvent)) :=
  [ ("codepipeline-pipeline-action-execution-succeeded", (ActionExecution, Succeeded));
    ("codepipeline-pipeline-action-execution-failed", (ActionExecution, Failed));
    ("codepipeline-pipeline-action-execution-canceled", (ActionExecution, Canceled));
    ("codepipeline-pipeline-action-execution-started", (ActionExecution, Started));
    ("codepipeline-pipeline-stage-execution-started", (StageExecution, Started));
    ("codepipeline-pipeline-stage-execution-succeeded", (StageExecution, Succeeded));
    ("codepipeline-pipeline-stage-execution-resumed", (StageExecution, Resumed));
    ("codepipeline-pipeline-stage-execution-canceled", (StageExecution, Canceled));
    ("codepipeline-pipeline-stage-execution-failed", (StageExecution, Failed));
    ("codepipeline-pipeline-pipeline-execution-failed", (PipelineExecution, Failed));
    ("codepipeline-pipeline-pipeline-execution-canceled", (PipelineExecution, Canceled));
    ("codepipeline-pipeline-pipeline-execution-started", (PipelineExecution, Started));
    ("codepipeline-pipeline-pipeline-execution-resumed", (PipelineExecution, Resumed));
    ("codepipeline-pipeline-pipeline-execution-succeeded", (PipelineExecution, Succeeded));
    ("codepipeline-pipeline-pipeline-execution-superseded", (PipelineExecution, Superseded));
    ("codepipeline-pipeline-manual-approval-failed", (ManualApproval, Failed));
    ("codepipeline-pipeline-manual-approval-needed", (ManualApproval, Needed));
    ("codepipeline-pipeline-manual-approval-succeeded", (ManualApproval, Succeeded)) ].

Definition eventOf (eventTypeId : string) : option (Granularity * LifecycleEvent) :=
  option_map snd
    (find (fun e => String.eqb (fst e) eventTypeId) eventTypes).

End Events.

(** ** The imported network *)

Module Network.
Import PipelineStack.

(** [cdk.Fn.select(index, array)] on an array of plain strings is
    [array[index]]: undefined past the end. *)
Definition select (index : nat) (array : list string) : option string :=
  nth_error array index.

Record VpcAttributes : Type := {
  attr_vpcId : string;
  attr_availabilityZones : list (option string);
  attr_publicSubnetIds : list (option string);
  attr_privateSubnetIds : list (option string);
  attr_privateSubnetRouteTableIds : list (option string);
  attr_publicSubnetRouteTableIds : list (option string)
}.

(** The attributes [ec2.Vpc.fromVpcAttributes] is given. *)
Definition vpcAttributes (environment : CodebuildOptions) : VpcAttributes :=
  {| attr_vpcId := vpcId environment;
     attr_availabilityZones :=
       [ select 0 (availabilityZones environment);
         select 1 (availabilityZones environment) ];
     attr_publicSubnetIds :=
       [ select 0 (publicSubnetIds environment);
         select 1 (publicSubnetIds environment) ];
     attr_privateSubnetIds :=
       [ select 0 (privateSubnetIds environment);
         select 1 (privateSubnetIds environment) ];
     attr_privateSubnetRouteTableIds :=
       [ select 0 (privateSubnetRouteTableIds environment);
         select 1 (privateSubnetRouteTableIds environment) ];
     attr_publicSubnetRouteTableIds :=
       [ select 0 (publicSubnetRouteTableIds environment);
         select 1 (publicSubnetRouteTableIds environment) ] |}.

End Network.

(** ** Replacing the secrets resolver *)

Module Rotation.
Import Deployment.

Definition withResolve (c : Collaborators) (r : string -> string) : Collaborators :=
  {| resolve := r;
     lookup := lookup c;
     websiteUrlOf := websiteUrlOf c;
     arnOf := arnOf c |}.

(** The deployed variables of a project, the credential's left out. *)
Definition withoutToken (l : list (string * (Cdk.BuildEnvironmentVariableType * string)))
  : list (string * (Cdk.BuildEnvironmentVariableType * string)) :=
  filter (fun kv => negb (String.eqb (fst kv) "GITHUB_OAUTH_TOKEN")) l.

End Rotation.

(** ** Checks on a whole pipeline *)

Module Checks.
Import Cdk.

Definition allActions (p : Pipeline) : list Action :=
  flat_map actions (stages p).

(** A placement directive holds in a stage list when the stage named in it
    stands right before the stage that carries it. *)
Definition placementHolds (l : list Stage) (s : Stage) : bool :=
  match placement s with
  | None => true
  | Some pl =>
      match findStageIndex (justAfter pl) l, findStageIndex (stageName s) l with
      | Some i, Some j => Nat.eqb j (S i)
      | _, _ => false
      end
  end.

Definition placementsHold (l : list Stage) : bool :=
  forallb (placementHolds l) l.

(** The actions whose variables an action reads. *)
Definition variablesUsed (a : Action) : list string :=
  match a with
  | ManualApprovalAction p =>
      flat_map (fun f => match f with
                         | Text _ => []
                         | ActionVariable actionName _ => [actionName]
                         end)
               (externalEntityLink p)
  | _ => []
  end.

Definition named (n : string) (l : list Stage) : list Action :=
  filter (fun b => String.eqb (actionName b) n) (flat_map actions l).

(** Every variable an action reads belongs to exactly one action, bound in
    a stage before the reader's. *)
Fixpoint variablesBound (before rest : list Stage) : bool :=
  match rest with
  | [] => true
  | s :: rest' =>
      forallb
        (fun a =>
           forallb (fun n => Nat.eqb (List.length (named n before)) 1
                             && Nat.eqb (List.length (named n rest)) 0)
                   (variablesUsed a))
        (actions s)
      && variablesBound (before ++ [s]) rest'
  end.

(** A template literal, once its variables have their values. *)
Definition render (variables : string -> string -> string) (l : list Fragment)
  : string :=
  fold_right
    (fun f acc => match f with
                  | Text s => s +++ acc
                  | ActionVariable a v => variables a v +++ acc
                  end)
    "" l.

Definition topicsRegistered (this : Scope) (p : Pipeline) : bool :=
  forallb (fun a => match a with
                    | ManualApprovalAction props =>
                        hasChild (notificationTopic props) this
                    | _ => true
                    end)
          (allActions p).

(** The handles an action mentions are cells of the store. *)
Definition handlesDeclared (store : ArtifactStore) (p : Pipeline) : bool :=
  forallb (fun a => forallb (fun h => Nat.ltb h (List.length store))
                            (actionInputs a ++ actionOutputs a))
          (allActions p).

(** No name occurs twice. *)
Fixpoint distinct (l : list string) : bool :=
  match l with
  | [] => true
  | x :: rest => negb (existsb (String.eqb x) rest) && distinct rest
  end.

(** The names of the build projects the actions of one stage run. *)
Definition stageProjectNames (stage : IStage) (p : Pipeline) : list string :=
  flat_map (fun a => match Deployment.projectOf a with
                     | Some project => [projectName project]
                     | None => []
                     end)
           (Observe.actionsOf stage p).

(** The names of the build projects the actions of a pipeline run. *)
Definition projectNames (p : Pipeline) : list string :=
  flat_map (fun a => match Deployment.projectOf a with
                     | Some project => [projectName project]
                     | None => []
                     end)
           (allActions p).

(** How many actions of the pipeline output each cell of the store. *)
Definition producerCounts (store : ArtifactStore) (p : Pipeline) : list nat :=
  map (fun h => List.length (Observe.producersIn h (stages p)))
      (seq 0 (List.length store)).

End Checks.

(** ** Strings *)

Lemma length_append (a b : string) :
  String.length (a +++ b) = String.length a + String.length b.
Proof.
  induction a as [|c a IH]; simpl; [reflexivity | now rewrite IH].
Qed.

Lemma sanitizeId_append (a b : string) :
  Cdk.sanitizeId (a +++ b) = Cdk.sanitizeId a +++ Cdk.sanitizeId b.
Proof.
  induction a as [|c a IH]; simpl; [reflexivity|].
  destruct (Ascii.eqb c "/"%char); simpl; now rewrite IH.
Qed.

(** Two strings differ when a character at a known position differs, or
    when their lengths do. *)
Ltac str_neq :=
  let H := fresh "H" in
  intro H;
  first
    [ discriminate H
    | congruence
    | apply (f_equal String.length) in H;
      simpl in H; repeat rewrite length_append in H; simpl in H; lia ].

Ltac eqb_false :=
  repeat match goal with
         | |- context [String.eqb ?a ?b] =>
             rewrite (proj2 (String.eqb_neq a b)) by str_neq
         end.

Import Cdk PipelineStack Built.

Ltac run :=
  repeat (progress (try unfold addStage; try unfold addAction;
                    try unfold findStage;
                    rewrite ?sanitizeId_append;
                    cbn -[String.eqb String.append];
                    rewrite ?String.eqb_refl;
                    eqb_false)).

Import Cdk PipelineStack Built Observe Deployment Events Network Rotation Checks.

(** The constructor never throws, and builds [stackOf]. *)
Lemma constructor_eq (environment : CodebuildOptions) :
  constructor environment = Ok (stackOf environment).
Proof.
  unfold constructor, stackOf, scopeOf, pipelineOf, stagesOf, isProduction,
    attachNotification, valueForStringParameter, fromStringParameterName,
    newConstruct, hasChild, addStages.
  unfold reportBucketId, codebuildBucketId, buildRoleId, vpcConstructId,
    pipelineConstructId, approvalTopicId, notificationRuleId.
  destruct (String.eqb (ENV environment) "dev") eqn:E; run;
    unfold Ok; f_equal; f_equal.
Qed.

(** The two scenarios of the specification, run. *)
Example dev_stage_names :
  match constructor Samples.devEnv with
  | inr stack => stageNames (codePipeline stack)
  | inl _ => []
  end = ["Source"; "Build"; "Deploy"].
Proof. reflexivity. Qed.

Example prod_stage_names :
  match constructor Samples.prodEnv with
  | inr stack => stageNames (codePipeline stack)
  | inl _ => []
  end = ["Source"; "Build"; "Approval"; "Deploy"].
Proof. reflexivity. Qed.

Example dev_has_no_approval_stage :
  match constructor Samples.devEnv with
  | inr stack => findStage "Approval" (codePipeline stack)
  | inl _ => None
  end = None.
Proof. reflexivity. Qed.

Lemma isProduction_iff (environment : CodebuildOptions) :
  isProduction environment = true <-> ENV environment <> "dev".
Proof.
  unfold isProduction. rewrite negb_true_iff. apply String.eqb_neq.
Qed.

(** The stages alone, whatever actions are bound later. *)
Lemma addStages_names (environment : CodebuildOptions) :
  exists st p,
    addStages environment (newPipeline environment) = Ok (st, p)
    /\ stageNames p =
         (if isProduction environment
          then ["Source"; "Build"; "Approval"; "Deploy"]
          else ["Source"; "Build"; "Deploy"]).
Proof.
  unfold addStages, isProduction.
  destruct (String.eqb (ENV environment) "dev"); run;
    do 2 eexists; split; reflexivity.
Qed.

(** ** Stage topology *)

(** C1: the constructed pipeline holds exactly the stages Source, Build,
    Approval, Deploy, in that order, when the environment is a production
    one, and exactly Source, Build, Deploy otherwise; Approval is there if
    and only if the environment is production, which is to say: not the
    [dev] tier. *)
Theorem stage_sequence (environment : CodebuildOptions) :
  exists stack,
    constructor environment = Ok stack
    /\ stageNames (codePipeline stack) =
         (if isProduction environment
          then ["Source"; "Build"; "Approval"; "Deploy"]
          else ["Source"; "Build"; "Deploy"])
    /\ (In "Approval" (stageNames (codePipeline stack))
         <-> isProduction environment = true)
    /\ (isProduction environment = true <-> ENV environment <> "dev").
Proof.
  exists (stackOf environment). split; [apply constructor_eq|].
  split; [|split; [|apply isProduction_iff]].
  - unfold stackOf, pipelineOf, stagesOf.
    destruct (isProduction environment); reflexivity.
  - unfold stackOf, pipelineOf, stagesOf.
    destruct (isProduction environment); cbn; split; intro H.
    + reflexivity.
    + tauto.
    + repeat (destruct H as [H|H]; try discriminate H). contradiction.
    + discriminate H.
Qed.

(** C2: the stage Deploy is placed after is Approval when the pipeline has
    an Approval stage and Build otherwise, never Source; and that stage is
    the one standing right before Deploy in the pipeline. *)
Theorem deploy_preceding_stage (environment : CodebuildOptions) :
  exists stack,
    constructor environment = Ok stack
    /\ precedingStage "Deploy" (codePipeline stack) =
         Some (match findStage "Approval" (codePipeline stack) with
               | Some _ => "Approval"
               | None => "Build"
               end)
    /\ precedingStage "Deploy" (codePipeline stack) <> Some "Source"
    /\ option_map S
         (match precedingStage "Deploy" (codePipeline stack) with
          | Some s => findStageIndex s (stages (codePipeline stack))
          | None => None
          end)
       = findStageIndex "Deploy" (stages (codePipeline stack)).
Proof.
  exists (stackOf environment). split; [apply constructor_eq|].
  unfold stackOf, pipelineOf, stagesOf, precedingStage.
  destruct (isProduction environment); cbn;
    (split; [reflexivity | split; [discriminate | reflexivity]]).
Qed.

(** ** Artifact flow *)

(** C3: in the constructed pipeline the Build action consumes the one
    artifact the Source action outputs and outputs exactly one artifact of
    its own; the Deploy action consumes that artifact and outputs none; and
    the last stage of the pipeline holds the Deploy action and nothing
    else, while no other stage holds it. *)
Theorem artifact_flow (environment : CodebuildOptions) :
  exists stack sourceOutput buildOutput,
    constructor environment = Ok stack
    /\ sourceOutput <> buildOutput
    /\ actionsOf "Source" (codePipeline stack) =
         [sourceAction environment sourceOutput]
    /\ actionsOf "Build" (codePipeline stack) =
         [buildAction environment sourceOutput buildOutput]
    /\ actionsOf "Deploy" (codePipeline stack) =
         [deployAction environment buildOutput]
    /\ actionOutputs (sourceAction environment sourceOutput) = [sourceOutput]
    /\ actionInputs (buildAction environment sourceOutput buildOutput) =
         [sourceOutput]
    /\ actionOutputs (buildAction environment sourceOutput buildOutput) =
         [buildOutput]
    /\ actionInputs (deployAction environment buildOutput) = [buildOutput]
    /\ actionOutputs (deployAction environment buildOutput) = []
    /\ option_map stageName (terminalStage (codePipeline stack)) = Some "Deploy"
    /\ option_map actions (terminalStage (codePipeline stack)) =
         Some [deployAction environment buildOutput]
    /\ map stageName
           (filter (fun s => existsb (fun a => String.eqb (actionName a) "Deploy")
                                      (actions s))
                   (stages (codePipeline stack))) = ["Deploy"].
Proof.
  exists (stackOf environment), 0, 1. split; [apply constructor_eq|].
  unfold stackOf, pipelineOf, stagesOf, actionsOf, terminalStage.
  destruct (isProduction environment); run; repeat split; discriminate.
Qed.

(** ** The credential *)

(** C4: both build projects are given the credential as the string form of
    the secret in a variable of plaintext type, so the deployed variable
    set of each holds the secret the resolver returns, as plaintext under
    [GITHUB_OAUTH_TOKEN]; the Source action is handed the secret reference
    itself. *)
Theorem oauth_token_stored_as_plaintext
  (c : Collaborators) (environment : CodebuildOptions) :
  exists stack,
    constructor environment = Ok stack
    /\ map projectOf (actionsOf "Build" (codePipeline stack)) =
         [Some (codeBuildProject environment)]
    /\ map projectOf (actionsOf "Deploy" (codePipeline stack)) =
         [Some (codeBuildDeploy environment)]
    /\ In ("GITHUB_OAUTH_TOKEN", plain (toString oauthSecret))
          (environmentVariables (codeBuildProject environment))
    /\ In ("GITHUB_OAUTH_TOKEN", plain (toString oauthSecret))
          (environmentVariables (codeBuildDeploy environment))
    /\ In ("GITHUB_OAUTH_TOKEN", (PLAINTEXT, resolve c "bridge-githubAccessToken"))
          (resolvedEnvironment c (codeBuildProject environment))
    /\ In ("GITHUB_OAUTH_TOKEN", (PLAINTEXT, resolve c "bridge-githubAccessToken"))
          (resolvedEnvironment c (codeBuildDeploy environment))
    /\ oauthSecret = secretsManager "bridge-githubAccessToken".
Proof.
  exists (stackOf environment). split; [apply constructor_eq|].
  unfold stackOf, pipelineOf, stagesOf, actionsOf.
  destruct (isProduction environment); run;
    repeat split; right; left; reflexivity.
Qed.

(** ** Binding actions *)

Lemma map_pushAction_absent (stage : IStage) (a : Action) (l : list Stage) :
  existsb (String.eqb stage) (map stageName l) = false ->
  map (fun s' => if String.eqb (stageName s') stage
                 then pushAction a s' else s') l = l.
Proof.
  induction l as [|s0 l IH]; simpl; intro H; [reflexivity|].
  apply orb_false_iff in H. destruct H as [H0 H].
  rewrite String.eqb_sym, H0, (IH H). reflexivity.
Qed.

Lemma map_pushAction_exact (stage : IStage) (a : Action) (l : list Stage) (s : Stage) :
  distinct (map stageName l) = true ->
  find (fun s' => String.eqb (stageName s') stage) l = Some s ->
  exists l1 l2,
    l = l1 ++ s :: l2
    /\ map (fun s' => if String.eqb (stageName s') stage
                      then pushAction a s' else s') l
       = l1 ++ pushAction a s :: l2.
Proof.
  induction l as [|s0 l IH]; simpl; intros Hd Hf; [discriminate Hf|].
  apply andb_true_iff in Hd. destruct Hd as [Hhead Hd].
  destruct (String.eqb (stageName s0) stage) eqn:E.
  - injection Hf as <-. exists [], l. split; [reflexivity|].
    apply String.eqb_eq in E. rewrite <- E.
    rewrite map_pushAction_absent; [reflexivity|].
    apply negb_true_iff, Hhead.
  - destruct (IH Hd Hf) as (l1 & l2 & Hl & Hm).
    exists (s0 :: l1), l2. split.
    + rewrite Hl. reflexivity.
    + rewrite Hm. reflexivity.
Qed.

(** The form check on names: the empty name and a name with a blank are
    refused before the pipeline is looked at, whatever the action. *)
Example malformed_action_names_are_refused :
  validName "" = false
  /\ validName "not a valid name !" = false
  /\ validName "ApprovalOrDeny" = true
  /\ validName (actionName (sourceAction Samples.devEnv 0)) = true
  /\ stageAddAction "Build"
        (CodeBuildAction {| cb_actionName := "not a valid name !";
                            input := 0; outputs := None;
                            project := codeBuildDeploy Samples.devEnv |})
        (pipelineOf Samples.devEnv)
     = Err (InvalidName "Action" "not a valid name !").
Proof. repeat split. Qed.

(** C5, as the code has it: binding checks no kind.  In a pipeline of
    distinct stage names, whatever the stage and whatever the action, the
    binding succeeds when the action's name is well formed and the stage
    holds no action of that name yet; the action becomes the last of that
    stage, and every other stage and the rest of the pipeline stay as they
    were. *)
Theorem addAction_checks_names_only
  (stage : IStage) (a : Action) (p : Pipeline) (s : Stage)
  (Hdistinct : distinct (stageNames p) = true)
  (Hstage : findStage stage p = Some s)
  (Hvalid : validName (actionName a) = true)
  (Hfresh : existsb (fun b => String.eqb (actionName b) (actionName a))
                    (actions s) = false) :
  exists before after,
    stages p = before ++ s :: after
    /\ stageAddAction stage a p
       = Ok (withStages p (before ++ pushAction a s :: after)).
Proof.
  unfold stageAddAction, validateName, addAction.
  rewrite Hvalid. cbn [bind Ok]. rewrite Hstage, Hfresh.
  destruct (map_pushAction_exact stage a (stages p) s Hdistinct Hstage)
    as (l1 & l2 & Hl & Hm).
  exists l1, l2. split; [exact Hl|]. rewrite Hm. reflexivity.
Qed.

Lemma addAction_checks_names_only_witness :
  exists before after,
    stages (pipelineOf Samples.prodEnv)
    = before ++ {| stageName := "Deploy";
                   placement := Some {| justAfter := "Approval" |};
                   actions := [deployAction Samples.prodEnv 1] |} :: after
    /\ stageAddAction "Deploy" (sourceAction Samples.prodEnv 0)
                      (pipelineOf Samples.prodEnv)
       = Ok (withStages (pipelineOf Samples.prodEnv)
               (before
                ++ pushAction (sourceAction Samples.prodEnv 0)
                     {| stageName := "Deploy";
                        placement := Some {| justAfter := "Approval" |};
                        actions := [deployAction Samples.prodEnv 1] |}
                :: after)).
Proof.
  apply (addAction_checks_names_only "Deploy" (sourceAction Samples.prodEnv 0)
           (pipelineOf Samples.prodEnv)
           {| stageName := "Deploy";
              placement := Some {| justAfter := "Approval" |};
              actions := [deployAction Samples.prodEnv 1] |});
    reflexivity.
Defined.

(** C5, as stated, fails: the Deploy action of the [dev] stack binds to its
    Build stage without any error, and sits there next to the Build
    action. *)
Lemma deploy_action_binds_to_build_stage :
  exists stack p',
    constructor Samples.devEnv = Ok stack
    /\ addAction "Build" (deployAction Samples.devEnv 1) (codePipeline stack)
       = Ok p'
    /\ actionsOf "Build" p' =
         [buildAction Samples.devEnv 0 1; deployAction Samples.devEnv 1].
Proof.
  exists (stackOf Samples.devEnv). eexists.
  split; [apply constructor_eq|]. split; reflexivity.
Qed.

(** ** Artifacts *)

(** C6, as the code has it: each declaration allocates a handle no earlier
    declaration returned, names it, and leaves the artifacts declared
    before as they were; the constructor declares its two artifacts once
    each, and in the pipeline it builds every consumed artifact has exactly
    one producer, bound in an earlier stage. *)
Theorem artifacts_are_fresh_and_wired :
  (forall artifactName store,
      nth_error store (fst (newArtifact artifactName store)) = None
      /\ nth_error (snd (newArtifact artifactName store))
                   (fst (newArtifact artifactName store)) = Some artifactName
      /\ firstn (List.length store) (snd (newArtifact artifactName store)) = store)
  /\ (forall environment,
        exists stack,
          constructor environment = Ok stack
          /\ artifacts stack = ["sourceOutput"; "buildOutput"]
          /\ wellWired (codePipeline stack) = true).
Proof.
  split.
  - intros artifactName store. unfold newArtifact. cbn [fst snd].
    split; [|split].
    + apply nth_error_None. apply Nat.le_refl.
    + rewrite nth_error_app2 by apply Nat.le_refl.
      rewrite Nat.sub_diag. reflexivity.
    + rewrite firstn_app, Nat.sub_diag, firstn_all. apply app_nil_r.
  - intro environment.
    exists (stackOf environment). split; [apply constructor_eq|].
    split; [reflexivity|].
    unfold stackOf, pipelineOf, stagesOf, wellWired.
    destruct (isProduction environment); reflexivity.
Qed.

(** C6, as stated, fails: declaring the id [sourceOutput] a second time
    returns another handle than the first declaration did, and the store
    then holds two artifacts of that name. *)
Lemma artifact_declared_twice_is_two_handles :
  let first := newArtifact "sourceOutput" [] in
  let second := newArtifact "sourceOutput" (snd first) in
  fst first <> fst second
  /\ snd second = ["sourceOutput"; "sourceOutput"].
Proof.
  cbn. split; [discriminate | reflexivity].
Qed.

(** ** Notification *)

(** C7: the constructed stack holds one notification rule; its events are
    exactly the success and the failure of a pipeline execution, none of a
    stage or an action; its resource is the pipeline itself; its one
    target is the topic read from the parameter store. *)
Theorem notification_rule_events (environment : CodebuildOptions) :
  exists stack rule,
    constructor environment = Ok stack
    /\ notificationRules (scope stack) = [rule]
    /\ eventTypeIds rule =
         [ "codepipeline-pipeline-pipeline-execution-succeeded";
           "codepipeline-pipeline-pipeline-execution-failed" ]
    /\ map eventOf (eventTypeIds rule) =
         [ Some (PipelineExecution, Succeeded);
           Some (PipelineExecution, Failed) ]
    /\ resource rule = pipelineArn (codePipeline stack)
    /\ targets rule =
         [ {| targetType := "SNS";
              targetAddress := ParameterValue "/cfstack/arn/JIRA_INTEGRATION" |} ].
Proof.
  exists (stackOf environment),
    (codepipelinebuildStar environment (pipelineOf environment) snsJiraArn).
  split; [apply constructor_eq|].
  unfold stackOf, scopeOf, notificationRules.
  destruct (isProduction environment); cbn -[String.append];
    repeat split.
Qed.

(** C8, as the code has it: the constructed stack holds exactly one
    notification rule, and attaching a rule to that stack again, for
    whatever environment, pipeline and target, is refused: the scope
    already holds a construct under the rule's id. *)
Theorem notification_attached_once (environment : CodebuildOptions) :
  exists stack,
    constructor environment = Ok stack
    /\ List.length (notificationRules (scope stack)) = 1
    /\ forall environment' codePipeline' target,
         attachNotification environment' codePipeline' target (scope stack)
         = Err (DuplicateConstruct notificationRuleId).
Proof.
  exists (stackOf environment). split; [apply constructor_eq|].
  unfold stackOf, scopeOf, notificationRules, attachNotification,
    newConstruct, hasChild.
  split.
  - destruct (isProduction environment); reflexivity.
  - intros environment' codePipeline' target. cbn [scope].
    rewrite existsb_app. cbn [existsb fst].
    rewrite String.eqb_refl, orb_true_r. reflexivity.
Qed.

(** C8, as stated, fails: attaching the rule of the [dev] stack to that
    stack a second time, same pipeline and same target, raises an error. *)
Lemma notification_attached_twice_is_an_error :
  exists stack,
    constructor Samples.devEnv = Ok stack
    /\ attachNotification Samples.devEnv (codePipeline stack) snsJiraArn
                          (scope stack)
       = Err (DuplicateConstruct "bridge-api-codestar-notification").
Proof.
  exists (stackOf Samples.devEnv).
  split; [apply constructor_eq | vm_compute; reflexivity].
Qed.

(** ** Approval *)

(** C9: in the constructed pipeline the Approval stage exists exactly when
    the environment is production; when it exists it holds the approval
    action and nothing else; and the stages that hold an approval action
    are exactly the stages named Approval.  So there is no Approval stage
    without its action and no approval action without its stage. *)
Theorem approval_stage_iff_action (environment : CodebuildOptions) :
  exists stack,
    constructor environment = Ok stack
    /\ option_map actions (findStage "Approval" (codePipeline stack)) =
         (if isProduction environment
          then Some [approvalAction environment (sourceAction environment 0)]
          else None)
    /\ isApproval (approvalAction environment (sourceAction environment 0)) = true
    /\ filter (fun s => existsb isApproval (actions s))
              (stages (codePipeline stack))
       = filter (fun s => String.eqb (stageName s) "Approval")
                (stages (codePipeline stack))
    /\ existsb (fun s => existsb isApproval (actions s))
               (stages (codePipeline stack))
       = existsb (fun s => String.eqb (stageName s) "Approval")
                 (stages (codePipeline stack)).
Proof.
  exists (stackOf environment). split; [apply constructor_eq|].
  unfold stackOf, pipelineOf, stagesOf.
  destruct (isProduction environment); repeat split.
Qed.

(** ** Source *)

(** C10: the Source action of the constructed pipeline fetches from owner
    [CoolBitX-Technology], repository [sygna-bridge-api], with the same
    credential reference and trigger, whatever the environment; its branch
    is the environment's branch, and two environments can differ in it. *)
Theorem source_action_parameters (environment : CodebuildOptions) :
  exists stack props,
    constructor environment = Ok stack
    /\ actionsOf "Source" (codePipeline stack) = [GitHubSourceAction props]
    /\ gh_owner props = "CoolBitX-Technology"
    /\ gh_repo props = "sygna-bridge-api"
    /\ gh_oauthToken props = secretsManager "bridge-githubAccessToken"
    /\ gh_trigger props = WEBHOOK
    /\ gh_branch props = branch environment
    /\ branch Samples.devEnv <> branch Samples.prodEnv.
Proof.
  exists (stackOf environment). eexists.
  split; [apply constructor_eq|].
  unfold stackOf, pipelineOf, stagesOf, actionsOf.
  split; [reflexivity|].
  repeat split. discriminate.
Qed.

(** ** Further properties of the constructor *)

Ltac not_in :=
  let Hin := fresh "Hin" in
  intro Hin; cbn [In map fst app] in Hin;
  repeat (destruct Hin as [Hin|Hin]; [revert Hin; str_neq|]);
  exact Hin.

Ltac no_dup :=
  repeat (apply NoDup_cons; [not_in|]); apply NoDup_nil.


(** The scope of the [dev] stack, as the constructor leaves it. *)
Example dev_scope_ids :
  match constructor Samples.devEnv with
  | inr stack => map fst (scope stack)
  | inl _ => []
  end
  = [ "Bridge-Codebuild-Arn.Parameter"; "Bridge-Codebuild-Arn";
      "BridgeCodebuildDockerArn"; "Bridge-Api-Sit-Report-dev-v2";
      "Bridge-Api-Codebuild-Bucket-dev-v2"; "Bridge-Api-CodeBuild-Role-dev-v2";
      "Bridge-Api-Codebuild-Policy-dev-v2"; "Bridge-Vpc-sit-v2";
      "Bridge-Api-Pipeline-dev-v2"; "bridge-api-slack-dev-url.Parameter";
      "bridge-api-slack-dev-url"; "Bridge-Api-dev-v2";
      "Bridge-Api-Codebuild-Deploy-dev-v2";
      "SsmParameterValue:--cfstack--arn--JIRA_INTEGRATION:C96584B6-F00A-464E-AD19-53AFF4B05118.Parameter";
      "SsmParameterValue:--cfstack--arn--JIRA_INTEGRATION:C96584B6-F00A-464E-AD19-53AFF4B05118";
      "bridge-api-codestar-notification" ].
Proof. vm_compute. reflexivity. Qed.

(** X2: the two constructs of the approval notification, the parameter
    lookup [bridge-arn-slackSNS] and the topic, are registered in the stack
    exactly when the environment is not [dev]; and the topic of every
    approval action of the pipeline is a construct of the stack. *)
Theorem approval_resources_guarded (environment : CodebuildOptions) :
  exists stack,
    constructor environment = Ok stack
    /\ hasChild "bridge-arn-slackSNS" (scope stack) = isProduction environment
    /\ hasChild (approvalTopicId environment) (scope stack)
       = isProduction environment
    /\ topicsRegistered (scope stack) (codePipeline stack) = true.
Proof.
  exists (stackOf environment). split; [apply constructor_eq|].
  unfold stackOf, scopeOf, pipelineOf, stagesOf, topicsRegistered, allActions,
    hasChild, reportBucketId, codebuildBucketId, buildRoleId, vpcConstructId,
    pipelineConstructId, approvalTopicId, notificationRuleId.
  destruct (isProduction environment); run; repeat split.
Qed.

(** X3: in the constructed pipeline the stage names are pairwise distinct,
    the first stage carries no placement, and every placement directive
    holds in the final order: each stage stands right after the stage it
    was placed after, so no later insertion has separated a pair. *)
Theorem placements_hold (environment : CodebuildOptions) :
  exists stack,
    constructor environment = Ok stack
    /\ NoDup (stageNames (codePipeline stack))
    /\ option_map placement (hd_error (stages (codePipeline stack))) = Some None
    /\ placementsHold (stages (codePipeline stack)) = true.
Proof.
  exists (stackOf environment). split; [apply constructor_eq|].
  unfold stackOf, pipelineOf, stagesOf.
  destruct (isProduction environment); cbn;
    (split; [no_dup | split; reflexivity]).
Qed.

(** X4: whatever the environment's name, the actions of the constructed
    pipeline have pairwise distinct names, and every action whose variables
    the approval link reads is exactly one action of the pipeline, bound in
    a stage before the reader's. *)
Theorem action_variables_bound (environment : CodebuildOptions) :
  exists stack,
    constructor environment = Ok stack
    /\ NoDup (map actionName (allActions (codePipeline stack)))
    /\ variablesBound [] (stages (codePipeline stack)) = true.
Proof.
  exists (stackOf environment). split; [apply constructor_eq|].
  unfold stackOf, pipelineOf, stagesOf, allActions.
  destruct (isProduction environment).
  - split; [cbn -[String.append]; no_dup|].
    unfold variablesBound, named. run. reflexivity.
  - split; [cbn -[String.append]; no_dup|]. reflexivity.
Qed.

Lemma append_inj_r (a b s : string) : a +++ s = b +++ s -> a = b.
Proof.
  revert b. induction a as [|c a IH]; intros [|d b] H; simpl in H.
  - reflexivity.
  - apply (f_equal String.length) in H. simpl in H.
    rewrite length_append in H. lia.
  - apply (f_equal String.length) in H. simpl in H.
    rewrite length_append in H. lia.
  - injection H as -> H. f_equal. apply IH, H.
Qed.

Ltac name_iff :=
  split;
  [ let H := fresh "H" in
    intro H; cbn in H;
    repeat match type of H with
           | _ :: _ = _ :: _ =>
               first [injection H as H _ | injection H as H]
           | String _ _ = String _ _ => injection H as H
           end;
    first [ exact (append_inj_r _ _ _ H) | exact H ]
  | let H := fresh "H" in intro H; cbn; rewrite H; reflexivity ].

(** X5: the name given to the deployed pipeline, the name of the build
    project, the name of the deploy project and the name of the
    notification rule each determine the environment's name: two
    constructed stacks agree on any one of the four exactly when their
    environments have the same name.  Within one stack the two build
    projects never share a name. *)
Theorem physical_names_follow_ENV (e1 e2 : CodebuildOptions) :
  exists s1 s2,
    constructor e1 = Ok s1
    /\ constructor e2 = Ok s2
    /\ (pipelineName (codePipeline s1) = pipelineName (codePipeline s2)
         <-> ENV e1 = ENV e2)
    /\ (stageProjectNames "Build" (codePipeline s1)
         = stageProjectNames "Build" (codePipeline s2)
         <-> ENV e1 = ENV e2)
    /\ (stageProjectNames "Deploy" (codePipeline s1)
         = stageProjectNames "Deploy" (codePipeline s2)
         <-> ENV e1 = ENV e2)
    /\ (map name (notificationRules (scope s1))
         = map name (notificationRules (scope s2))
         <-> ENV e1 = ENV e2)
    /\ List.length (stageProjectNames "Build" (codePipeline s1)) = 1
    /\ List.length (stageProjectNames "Deploy" (codePipeline s1)) = 1
    /\ NoDup (projectNames (codePipeline s1)).
Proof.
  exists (stackOf e1), (stackOf e2).
  split; [apply constructor_eq|]. split; [apply constructor_eq|].
  unfold stackOf, scopeOf, pipelineOf, stagesOf, projectNames,
    stageProjectNames, actionsOf, allActions, notificationRules.
  destruct (isProduction e1), (isProduction e2);
    cbn -[String.append sanitizeId];
    (split; [name_iff | split; [name_iff | split; [name_iff |
      split; [name_iff | split; [reflexivity | split;
        [reflexivity | no_dup]]]]]]).
Qed.

(** A limit of X5: names of different roles can meet across environments.
    The build project of an environment named [Deploy-dev] is named as the
    deploy project of [dev]. *)
Remark project_names_meet_across_roles :
  projectName
    (codeBuildProject
       {| ENV := "Deploy-dev"; branch := "develop";
          testStage := "sit"; productionStage := "prod";
          vpcId := "vpc-0a1b"; availabilityZones := [];
          publicSubnetIds := []; privateSubnetIds := [];
          privateSubnetRouteTableIds := [];
          publicSubnetRouteTableIds := [] |})
  = projectName (codeBuildDeploy Samples.devEnv).
Proof. reflexivity. Qed.

(** X6: the secret reaches one variable only.  Whatever the secrets
    resolver is replaced by, the deployed variable sets of the two projects
    of the constructed pipeline keep every entry but [GITHUB_OAUTH_TOKEN]:
    six entries each, all of plaintext type, the same for both projects,
    four of them the environment's own name, stages and branch. *)
Theorem secret_reaches_one_variable
  (c : Collaborators) (r : string -> string) (environment : CodebuildOptions) :
  exists stack build deploy,
    constructor environment = Ok stack
    /\ map projectOf (actionsOf "Build" (codePipeline stack)) = [Some build]
    /\ map projectOf (actionsOf "Deploy" (codePipeline stack)) = [Some deploy]
    /\ withoutToken (resolvedEnvironment (withResolve c r) build)
       = withoutToken (resolvedEnvironment c build)
    /\ withoutToken (resolvedEnvironment (withResolve c r) deploy)
       = withoutToken (resolvedEnvironment c deploy)
    /\ withoutToken (resolvedEnvironment c deploy)
       = withoutToken (resolvedEnvironment c build)
    /\ withoutToken (resolvedEnvironment c build)
       = [ ("ENV", (PLAINTEXT, ENV environment));
           ("TEST_STAGE", (PLAINTEXT, testStage environment));
           ("PROD_STAGE", (PLAINTEXT, productionStage environment));
           ("BRANCH", (PLAINTEXT, branch environment));
           ("S3_REPORT_BUCKET_URL",
            (PLAINTEXT, websiteUrlOf c (reportBucketId environment)));
           ("SLACK_HOOK_URL",
            (PLAINTEXT,
             lookup c ("/sit/" +++ ENV environment +++ "/SLACK_HOOK_URL"))) ].
Proof.
  exists (stackOf environment),
    (codeBuildProject environment), (codeBuildDeploy environment).
  split; [apply constructor_eq|].
  unfold stackOf, pipelineOf, stagesOf, actionsOf.
  destruct (isProduction environment); run; repeat split.
Qed.

(** X7: every artifact handle an action of the constructed pipeline
    mentions is a cell of the stack's artifact store, the artifacts of the
    store have distinct names, and each of them, consumed or not, is the
    output of exactly one action. *)
Theorem artifacts_declared_and_produced_once (environment : CodebuildOptions) :
  exists stack,
    constructor environment = Ok stack
    /\ handlesDeclared (artifacts stack) (codePipeline stack) = true
    /\ NoDup (artifacts stack)
    /\ producerCounts (artifacts stack) (codePipeline stack)
       = map (fun _ => 1) (artifacts stack).
Proof.
  exists (stackOf environment). split; [apply constructor_eq|].
  unfold stackOf, pipelineOf, stagesOf.
  destruct (isProduction environment); cbn;
    (split; [reflexivity | split; [no_dup | reflexivity]]).
Qed.

Lemma select_pair (l : list string) :
  [select 0 l; select 1 l]
  = map Some (firstn 2 l) ++ repeat None (2 - List.length l).
Proof.
  destruct l as [|a [|b l]]; reflexivity.
Qed.

(** X8: the imported network is given the network id unchanged and, of
    each of the five lists of the environment, the first two entries in
    their order: entries past the second never reach it, and a list
    shorter than two leaves the missing entries undefined. *)
Theorem network_takes_first_two (environment : CodebuildOptions) :
  let pair (l : list string) :=
    map Some (firstn 2 l) ++ repeat None (2 - List.length l) in
  attr_vpcId (vpcAttributes environment) = vpcId environment
  /\ attr_availabilityZones (vpcAttributes environment)
     = pair (availabilityZones environment)
  /\ attr_publicSubnetIds (vpcAttributes environment)
     = pair (publicSubnetIds environment)
  /\ attr_privateSubnetIds (vpcAttributes environment)
     = pair (privateSubnetIds environment)
  /\ attr_privateSubnetRouteTableIds (vpcAttributes environment)
     = pair (privateSubnetRouteTableIds environment)
  /\ attr_publicSubnetRouteTableIds (vpcAttributes environment)
     = pair (publicSubnetRouteTableIds environment).
Proof.
  cbn zeta. unfold vpcAttributes. cbn [attr_vpcId attr_availabilityZones
    attr_publicSubnetIds attr_privateSubnetIds
    attr_privateSubnetRouteTableIds attr_publicSubnetRouteTableIds].
  repeat split; apply select_pair.
Qed.

Lemma append_empty_r (s : string) : s +++ "" = s.
Proof.
  induction s as [|c s IH]; simpl; [reflexivity | now rewrite IH].
Qed.

(** X9: the link the approver is shown points into the repository the
    pipeline fetches.  Whatever values the pipeline gives the variables,
    the approval link reads [https://github.com/], the owner of the Source
    action, [/], the repository name and the commit id published by that
    same Source action. *)
Theorem approval_link_points_to_source
  (environment : CodebuildOptions) (sourceOutput : Artifact)
  (variables : string -> string -> string) :
  exists source approval,
    sourceAction environment sourceOutput = GitHubSourceAction source
    /\ approvalAction environment (sourceAction environment sourceOutput)
       = ManualApprovalAction approval
    /\ render variables (externalEntityLink approval)
       = "https://github.com/" +++ gh_owner source +++ "/"
         +++ variables (gh_actionName source) "RepositoryName"
         +++ "/commit/"
         +++ variables (gh_actionName source) "CommitId".
Proof.
  do 2 eexists. split; [reflexivity|]. split; [reflexivity|].
  cbn -[String.append]. rewrite append_empty_r. reflexivity.
Qed.
